(** * Stock market simulator: the trade ledger and its four metrics

    Shallow embedding of [stock_market_simulator.py]: the classes [Stock]
    and [StockMarket] with the methods [dividend_yield], [pe_ratio],
    [record_trade], [volume_weighted_stock_price] and
    [gbce_all_share_index].

    Conventions of the embedding.
    - A Python number is an exact rational ([Q]); a whole number is read as
      a Python int, as the source passes for its quantities and prices.
      Python's true division [/] raises [ZeroDivisionError] on a zero
      divisor and is otherwise the quotient; [sum] and [prod] are the left
      folds from [0] and [1].  The power operator with a float exponent
      leaves the rationals, so its result is a real number ([R]).
    - A value of the model stands for the double that Python returns: the
      theorems name the expression the code evaluates and do not use the
      laws of exact arithmetic to derive other values from it.  The range
      of a double is modelled where the code meets it, in the power of
      [gbce_all_share_index]: an int beyond the range raises
      [OverflowError] when [**] converts it.  Rounding, and the overflow of
      a product of floats to infinity, are outside the model; the theorems
      on the index assume that the running product stays within the range.
    - [datetime.now()] is the reading of the ambient clock; every method
      that calls it takes that reading as its first argument, in
      microseconds (the resolution of [datetime]).
    - [Stock] objects are shared by reference between the caller and the
      [StockMarket], and [record_trade] mutates them in place: a [store]
      maps references to object states. *)

From Stdlib Require Import ZArith QArith Qreals Reals Lra Lia List String Bool.
From Stdlib Require Import Qabs Qround Permutation Sorted.
From Stdlib Require Lqa.
Import ListNotations.

(** ** Exceptions and the error monad *)

Inductive exn : Type :=
| ZeroDivisionError
| TypeError
| OverflowError.

Inductive result (A : Type) : Type :=
| Return (a : A)
| Raise (e : exn).

Arguments Return {A} a.
Arguments Raise {A} e.

Definition bind {A B : Type} (c : result A) (k : A -> result B) : result B :=
  match c with
  | Return a => k a
  | Raise e => Raise e
  end.

Notation "x <- c ;; k" := (bind c (fun x => k))
  (at level 61, c at next level, right associativity).

Definition raises {A : Type} (c : result A) : Prop :=
  exists e, c = Raise e.

(** ** Python arithmetic *)

Module Py.

(** [a / b] *)
Definition div (a b : Q) : result Q :=
  if Qeq_bool b 0 then Raise ZeroDivisionError else Return (a / b)%Q.

(** [a * b] where [a] may be [None] *)
Definition mul (a : option Q) (b : Q) : result Q :=
  match a with
  | Some x => Return (x * b)%Q
  | None => Raise TypeError
  end.

(** [sum(l)] *)
Definition sum (l : list Q) : Q := fold_left Qplus l 0%Q.

(** [math.prod(l)] *)
Definition prod (l : list Q) : Q := fold_left Qmult l 1%Q.

(** [len(l)] as a number *)
Definition len {A : Type} (l : list A) : Q := inject_Z (Z.of_nat (List.length l)).

(** The least magnitude beyond the range of a double: [2^1024 - 2^970],
    which rounds to [2^1024]. *)
Definition overflow_bound : Q := inject_Z (2 ^ 1024 - 2 ^ 970).

(** A number within the range of a double. *)
Definition in_range (x : Q) : Prop := (Qabs x < overflow_bound)%Q.


(** The conversion of the int left operand of [**] to a float: an int
    beyond the range of a double raises [OverflowError]. *)
Definition to_float (x : Q) : result R :=
  if Qle_bool overflow_bound (Qabs x) then Raise OverflowError
  else Return (Q2R x).

(** The values of the product as [math.prod] runs through the list,
    starting from [acc]. *)
Fixpoint running_products (acc : Q) (l : list Q) : list Q :=
  match l with
  | [] => []
  | x :: l' => (acc * x)%Q :: running_products (acc * x)%Q l'
  end.

(** The value of [x ** y]: a float, or a complex number when a negative
    base meets a fractional exponent. *)
Inductive number : Type :=
| Float (r : R)
| Complex (re im : R).

(** [x ** y] for floats [x] and [y]: a result beyond the range of a double
    raises [OverflowError]. *)
Definition pow (x y : R) : result number :=
  if Req_dec_T y 0 then Return (Float 1)
  else if Req_dec_T x 0 then
    if Rlt_dec y 0 then Raise ZeroDivisionError else Return (Float 0)
  else if Rle_dec (Q2R overflow_bound) (Rpower (Rabs x) y) then
    Raise OverflowError
  else if Rlt_dec 0 x then Return (Float (Rpower x y))
  else if Req_dec_T y (IZR (Int_part y)) then
    Return (Float ((if Z.even (Int_part y) then 1 else -1) * Rpower (- x) y))
  else
    Return (Complex (Rpower (- x) y * cos (PI * y))
                    (Rpower (- x) y * sin (PI * y))).

End Py.

(** ** Data model *)

(** A trade is the dict built by [record_trade]. *)
Record Trade : Type := mkTrade {
  timestamp : Z;
  quantity : Q;
  action : string;
  price : Q
}.

Record Stock : Type := mkStock {
  symbol : string;
  stock_type : string;
  last_dividend : Q;
  fixed_dividend : option Q;
  par_value : Q;
  trades : list Trade
}.

(** [Stock.__init__]: the trade list starts empty. *)
Definition Stock_init (symbol stock_type : string) (last_dividend : Q)
    (fixed_dividend : option Q) (par_value : Q) : Stock :=
  mkStock symbol stock_type last_dividend fixed_dividend par_value [].

(** ** Methods of [Stock] *)

(** [dividend_yield]: [Some v] is a returned number, [None] is Python's
    [None], returned when control falls off the end of the [if]/[elif]. *)
Definition dividend_yield (self : Stock) (price : Q) : result (option Q) :=
  if String.eqb (stock_type self) "Common" then
    v <- Py.div (last_dividend self) price ;; Return (Some v)
  else if String.eqb (stock_type self) "Preferred" then
    d <- Py.mul (fixed_dividend self) (par_value self) ;;
    v <- Py.div d price ;;
    Return (Some v)
  else Return None.

Definition pe_ratio (self : Stock) (price : Q) : result Q :=
  Py.div price (last_dividend self).

(** [record_trade]: appends the new trade to [self.trades] and returns
    [None] (here [tt]); [now] is the clock reading of [datetime.now()]. *)
Definition record_trade (now : Z) (self : Stock)
    (quantity : Q) (action : string) (price : Q) : result (unit * Stock) :=
  Return (tt,
          mkStock (symbol self) (stock_type self) (last_dividend self)
                  (fixed_dividend self) (par_value self)
                  (trades self ++ [mkTrade now quantity action price])).

(** [timedelta(minutes=15)] in microseconds. *)
Definition minutes_15 : Z := 15 * 60 * 1000000.

(** [now - trade['timestamp'] <= timedelta(minutes=15)] *)
Definition in_window (now : Z) (trade : Trade) : bool :=
  (now - timestamp trade <=? minutes_15)%Z.

Definition volume_weighted_stock_price (now : Z) (self : Stock) : result Q :=
  let past_15_minutes_trades := filter (in_window now) (trades self) in
  let trade_sum :=
    Py.sum (map (fun trade => quantity trade * price trade)%Q
                past_15_minutes_trades) in
  let quantity_sum := Py.sum (map quantity past_15_minutes_trades) in
  Py.div trade_sum quantity_sum.

(** ** Objects and references *)

(** A reference to a [Stock] object, and the store holding the state of
    every object.  A Python reference never dangles, so the store is
    total. *)
Definition ref : Type := nat.

Definition store : Type := ref -> Stock.

Definition store_set (h : store) (l : ref) (s : Stock) : store :=
  fun l' => if Nat.eqb l' l then s else h l'.

(** The call [stock.record_trade(quantity, action, price)] on the object
    that [stock] refers to: the object is updated in place. *)
Definition call_record_trade (now : Z) (h : store) (stock : ref)
    (quantity : Q) (action : string) (price : Q) : result (unit * store) :=
  r <- record_trade now (h stock) quantity action price ;;
  Return (fst r, store_set h stock (snd r)).

(** ** Python dictionaries with string keys

    A dict keeps its keys in insertion order; storing under a key that is
    already present replaces the value and leaves the key where it was. *)
Definition dict (V : Type) : Type := list (string * V).

Fixpoint dict_set {V : Type} (d : dict V) (k : string) (v : V) : dict V :=
  match d with
  | [] => [(k, v)]
  | (k', v') :: d' =>
      if String.eqb k k' then (k', v) :: d' else (k', v') :: dict_set d' k v
  end.

Fixpoint dict_get {V : Type} (d : dict V) (k : string) : option V :=
  match d with
  | [] => None
  | (k', v') :: d' => if String.eqb k k' then Some v' else dict_get d' k
  end.

Definition dict_keys {V : Type} (d : dict V) : list string := map fst d.

Definition dict_values {V : Type} (d : dict V) : list V := map snd d.

(** ** [StockMarket] *)

Record StockMarket : Type := mkStockMarket {
  stocks : dict ref
}.

(** [StockMarket.__init__]: the dict comprehension
    [{stock.symbol: stock for stock in stocks}]. *)
Definition StockMarket_init (h : store) (stocks : list ref) : StockMarket :=
  mkStockMarket
    (fold_left (fun d stock => dict_set d (symbol (h stock)) stock) stocks []).

(** The loop of [gbce_all_share_index] that fills [prices]. *)
Definition collect_prices (h : store) (self : StockMarket) : list Q :=
  fold_left (fun prices stock => prices ++ map price (trades (h stock)))
            (dict_values (stocks self)) [].

(** [prod(prices) ** (1.0 / len(prices))]: the product, then the
    quotient, then the power, which first converts the product. *)
Definition gbce_all_share_index (h : store) (self : StockMarket)
    : result Py.number :=
  let prices := collect_prices h self in
  let p := Py.prod prices in
  e <- Py.div 1 (Py.len prices) ;;
  x <- Py.to_float p ;;
  Py.pow x (Q2R e).

(** ** The example of the source file *)

Module Example.

Definition tea : Stock := Stock_init "TEA" "Common" 0 None 100.
Definition pop : Stock := Stock_init "POP" "Common" 8 None 100.
Definition ale : Stock := Stock_init "ALE" "Common" 23 None 60.
Definition gin : Stock := Stock_init "GIN" "Preferred" 8 (Some (2 # 100)) 100.
Definition joe : Stock := Stock_init "JOE" "Common" 13 None 250.

(** The five objects sit at references 0 to 4. *)
Definition objects : store := fun l => nth l [tea; pop; ale; gin; joe] tea.

Definition gbce : StockMarket := StockMarket_init objects [0; 1; 2; 3; 4]%nat.

(** The five [record_trade] calls, all made at clock reading [now]. *)
Definition traded (now : Z) : result store :=
  r <- call_record_trade now objects 0%nat 100 "buy" 110 ;;
  r <- call_record_trade now (snd r) 1%nat 200 "sell" 120 ;;
  r <- call_record_trade now (snd r) 2%nat 150 "buy" 130 ;;
  r <- call_record_trade now (snd r) 3%nat 250 "sell" 140 ;;
  r <- call_record_trade now (snd r) 4%nat 300 "buy" 150 ;;
  Return (snd r).

(** The store once the five trades are recorded. *)
Definition final (now : Z) : store :=
  match traded now with
  | Return h => h
  | Raise _ => objects
  end.

End Example.

(** ** Notions of the specification

    The specification's own words, as definitions to compare the code with. *)

Module Spec.

(** Σ and Π over a list of numbers. *)
Fixpoint Sum (l : list Q) : Q :=
  match l with
  | [] => 0
  | x :: l' => x + Sum l'
  end.

Fixpoint Prod (l : list Q) : Q :=
  match l with
  | [] => 1
  | x :: l' => x * Prod l'
  end.

(** The age of a trade at the instant [asOf]. *)
Definition age (asOf : Z) (t : Trade) : Z := asOf - timestamp t.

(** The default lookback window: 15 minutes, in microseconds. *)
Definition default_window : Z := 900 * 1000000.

(** The trades whose age is at most the window [w]. *)
Definition within (asOf w : Z) (l : list Trade) : list Trade :=
  filter (fun t => (age asOf t <=? w)%Z) l.

(** Σ(quantity·price) / Σ(quantity) over a set of trades. *)
Definition volume_weighted (l : list Trade) : Q :=
  Sum (map (fun t => quantity t * price t) l) / Sum (map quantity l).

(** Every trade of every share of the registry. *)
Definition all_trades (h : store) (m : StockMarket) : list Trade :=
  flat_map (fun l => trades (h l)) (dict_values (stocks m)).

(** [g] is the geometric mean of [prices]: the positive n-th root of their
    product. *)
Definition geometric_mean (prices : list Q) (g : R) : Prop :=
  (0 < g)%R /\ (g ^ List.length prices)%R = Q2R (Prod prices).

(** A valid input of [recordTrade]. *)
Definition valid_trade (quantity : Q) (action : string) (price : Q) : Prop :=
  0 < quantity /\ 0 < price /\ (action = "buy"%string \/ action = "sell"%string).

(** The share of the list that a symbol stands for when a later share with
    the same symbol replaces an earlier one. *)
Definition last_with_symbol (h : store) (l : list ref) (s : string)
    : option ref :=
  find (fun r => String.eqb s (symbol (h r))) (rev l).

End Spec.

(** ** Further notions used by the properties *)

(** The share [s] with another trade list. *)
Definition with_trades (s : Stock) (l : list Trade) : Stock :=
  mkStock (symbol s) (stock_type s) (last_dividend s) (fixed_dividend s)
          (par_value s) l.

(** The trade [t] with its action replaced. *)
Definition relabel (f : Trade -> string) (t : Trade) : Trade :=
  mkTrade (timestamp t) (quantity t) (f t) (price t).

(** A ledger in chronological order. *)
Definition chronological (l : list Trade) : Prop :=
  StronglySorted Z.le (map timestamp l).



(** * Properties *)

(** ** Arithmetic *)

Lemma div_zero (a b : Q) : b == 0 -> Py.div a b = Raise ZeroDivisionError.
Proof.
  intros Hb. unfold Py.div.
  now rewrite (proj2 (Qeq_bool_iff b 0) Hb).
Qed.

Lemma div_nonzero (a b : Q) : ~ b == 0 -> Py.div a b = Return (a / b).
Proof.
  intros Hb. unfold Py.div.
  destruct (Qeq_bool b 0) eqn:E; [| reflexivity].
  now apply Qeq_bool_iff in E.
Qed.

Lemma div_raises_iff (a b : Q) : raises (Py.div a b) <-> b == 0.
Proof.
  split.
  - intros [e He]. destruct (Qeq_dec b 0) as [Hz | Hnz]; [assumption |].
    rewrite (div_nonzero _ _ Hnz) in He. discriminate.
  - intros Hb. exists ZeroDivisionError. now apply div_zero.
Qed.

Lemma fold_plus_Sum (l : list Q) (a : Q) :
  fold_left Qplus l a == a + Spec.Sum l.
Proof.
  revert a. induction l as [| x l IH]; intros a; simpl.
  - ring.
  - rewrite IH. ring.
Qed.

Lemma sum_Sum (l : list Q) : Py.sum l == Spec.Sum l.
Proof. unfold Py.sum. rewrite fold_plus_Sum. ring. Qed.

Lemma fold_mult_Prod (l : list Q) (a : Q) :
  fold_left Qmult l a == a * Spec.Prod l.
Proof.
  revert a. induction l as [| x l IH]; intros a; simpl.
  - ring.
  - rewrite IH. ring.
Qed.

Lemma prod_Prod (l : list Q) : Py.prod l == Spec.Prod l.
Proof. unfold Py.prod. rewrite fold_mult_Prod. ring. Qed.

Lemma Prod_pos (l : list Q) : Forall (fun p => 0 < p) l -> 0 < Spec.Prod l.
Proof.
  induction 1 as [| x l Hx _ IH]; simpl.
  - reflexivity.
  - rewrite <- (Qmult_0_l (Spec.Prod l)).
    now apply Qmult_lt_compat_r.
Qed.

Lemma Q2R_len {A : Type} (l : list A) : Q2R (Py.len l) = INR (List.length l).
Proof.
  unfold Py.len, Q2R. simpl. rewrite INR_IZR_INZ. lra.
Qed.

Lemma len_zero_iff {A : Type} (l : list A) : Py.len l == 0 <-> l = [].
Proof.
  unfold Py.len. split.
  - intros H. destruct l as [| x l]; [reflexivity |].
    unfold Qeq in H. simpl in H. lia.
  - intros ->. reflexivity.
Qed.

(** *** The range of a double *)

Lemma Q2R_zero : Q2R 0 = 0%R.
Proof. unfold Q2R. simpl. lra. Qed.

Lemma Q2R_one : Q2R 1 = 1%R.
Proof. unfold Q2R. simpl. lra. Qed.


Lemma Rabs_Q2R (x : Q) : Rabs (Q2R x) = Q2R (Qabs x).
Proof.
  apply Qabs_case; intros Hx.
  - apply Rabs_pos_eq. rewrite <- Q2R_zero. now apply Qle_Rle.
  - rewrite Q2R_opp. apply Rabs_left1.
    rewrite <- Q2R_zero. now apply Qle_Rle.
Qed.

Lemma in_range_Rabs (x : Q) :
  Py.in_range x -> (Rabs (Q2R x) < Q2R Py.overflow_bound)%R.
Proof. intros Hx. rewrite Rabs_Q2R. now apply Qlt_Rlt. Qed.

Lemma to_float_in_range (x : Q) :
  Py.in_range x -> Py.to_float x = Return (Q2R x).
Proof.
  intros Hx. unfold Py.to_float.
  destruct (Qle_bool Py.overflow_bound (Qabs x)) eqn:E; [| reflexivity].
  apply Qle_bool_iff in E. exfalso.
  apply (Qlt_irrefl (Qabs x)). eapply Qlt_le_trans; eassumption.
Qed.

Lemma to_float_overflow (x : Q) :
  ~ Py.in_range x -> Py.to_float x = Raise OverflowError.
Proof.
  intros Hx. unfold Py.to_float.
  destruct (Qle_bool Py.overflow_bound (Qabs x)) eqn:E; [reflexivity |].
  exfalso. apply Hx. unfold Py.in_range.
  apply Qnot_le_lt. intros Hle. apply Qle_bool_iff in Hle. congruence.
Qed.

(** The product is the last of the running products. *)
Lemma running_products_last (l : list Q) (acc : Q) :
  l <> [] -> In (fold_left Qmult l acc) (Py.running_products acc l).
Proof.
  revert acc. induction l as [| x l IH]; intros acc Hne; [contradiction |].
  simpl. destruct l as [| y l'].
  - now left.
  - right. apply IH. discriminate.
Qed.

Lemma running_products_prod (l : list Q) :
  l <> [] -> Forall Py.in_range (Py.running_products 1 l) ->
  Py.in_range (Py.prod l).
Proof.
  intros Hne Hall. rewrite Forall_forall in Hall.
  apply Hall. now apply running_products_last.
Qed.



(** [x ** 1.0] is [x], whatever the sign of [x]. *)
Lemma pow_one (x : R) :
  (Rabs x < Q2R Py.overflow_bound)%R -> Py.pow x 1 = Return (Py.Float x).
Proof.
  intros Hr. unfold Py.pow.
  destruct (Req_dec_T 1 0) as [H | _]; [lra |].
  destruct (Req_dec_T x 0) as [-> | Hx0].
  - destruct (Rlt_dec 1 0) as [H | _]; [lra | reflexivity].
  - assert (Habs : (0 < Rabs x)%R) by now apply Rabs_pos_lt.
    rewrite (Rpower_1 _ Habs).
    destruct (Rle_dec (Q2R Py.overflow_bound) (Rabs x)) as [Hov | _]; [lra |].
    destruct (Rlt_dec 0 x) as [Hx | Hx].
    + now rewrite Rpower_1.
    + assert (Hi : Int_part 1 = 1%Z).
      { symmetry. apply Int_part_spec. simpl. lra. }
      rewrite Hi. simpl.
      destruct (Req_dec_T 1 1) as [_ | H]; [| contradiction].
      rewrite Rpower_1 by lra. f_equal. f_equal. lra.
Qed.

Lemma pow_zero_base (y : R) :
  (0 < y)%R -> Py.pow 0 y = Return (Py.Float 0).
Proof.
  intros Hy. unfold Py.pow.
  destruct (Req_dec_T y 0) as [E | _]; [lra |].
  destruct (Req_dec_T 0 0) as [_ | E]; [| contradiction].
  destruct (Rlt_dec y 0) as [E | _]; [lra | reflexivity].
Qed.


(** ** Dividend yield and P/E ratio *)

Lemma dividend_yield_common (s : Stock) (price : Q) :
  stock_type s = "Common"%string ->
  dividend_yield s price = v <- Py.div (last_dividend s) price ;; Return (Some v).
Proof. intros H. unfold dividend_yield. now rewrite H. Qed.

Lemma dividend_yield_preferred (s : Stock) (price : Q) :
  stock_type s = "Preferred"%string ->
  dividend_yield s price =
    d <- Py.mul (fixed_dividend s) (par_value s) ;;
    v <- Py.div d price ;; Return (Some v).
Proof. intros H. unfold dividend_yield. now rewrite H. Qed.

Lemma dividend_yield_other (s : Stock) (price : Q) :
  stock_type s <> "Common"%string -> stock_type s <> "Preferred"%string ->
  dividend_yield s price = Return None.
Proof.
  intros Hc Hp. unfold dividend_yield.
  apply String.eqb_neq in Hc. apply String.eqb_neq in Hp.
  now rewrite Hc, Hp.
Qed.

Lemma Qpos_nonzero (x : Q) : 0 < x -> ~ x == 0.
Proof. intros Hlt Heq. rewrite Heq in Hlt. now apply Qlt_irrefl in Hlt. Qed.

Lemma Qneg_nonzero (x : Q) : x < 0 -> ~ x == 0.
Proof. intros Hlt Heq. rewrite Heq in Hlt. now apply Qlt_irrefl in Hlt. Qed.

(** C1. For a share of a recognized category and a price above zero,
    [dividend_yield] returns [last_dividend / price] when the category is
    Common, and [(fixed_dividend * par_value) / price] when it is Preferred
    (a Preferred share carries its fixed dividend rate). *)
Theorem dividend_yield_formula (s : Stock) (price : Q) :
  0 < price ->
  (stock_type s = "Common"%string ->
   dividend_yield s price = Return (Some (last_dividend s / price)))
  /\
  (stock_type s = "Preferred"%string ->
   forall rate, fixed_dividend s = Some rate ->
   dividend_yield s price = Return (Some (rate * par_value s / price))).
Proof.
  intros Hp. apply Qpos_nonzero in Hp. split.
  - intros Hc. rewrite (dividend_yield_common _ _ Hc).
    now rewrite (div_nonzero _ _ Hp).
  - intros Hc rate Hr. rewrite (dividend_yield_preferred _ _ Hc), Hr. simpl.
    now rewrite (div_nonzero _ _ Hp).
Qed.

Lemma dividend_yield_formula_witness :
  dividend_yield Example.pop 120 = Return (Some (8 / 120))
  /\ dividend_yield Example.gin 140 = Return (Some ((2 # 100) * 100 / 140)).
Proof.
  split.
  - apply (proj1 (dividend_yield_formula Example.pop 120 eq_refl)).
    reflexivity.
  - apply (proj2 (dividend_yield_formula Example.gin 140 eq_refl)
                 eq_refl (2 # 100)).
    reflexivity.
Defined.

(** C4. [pe_ratio] fails exactly when [last_dividend == 0], with the
    division error of Python ([ZeroDivisionError], the failure the
    specification calls DivisionUndefined); otherwise it returns
    [price / last_dividend], a finite number: a last dividend of 8 gives
    15 at price 120.  No infinite or not-a-number value is returned in
    place of the failure. *)
Theorem pe_ratio_undefined_iff_zero_dividend (s : Stock) :
  (forall price, raises (pe_ratio s price) <-> last_dividend s == 0)
  /\ (forall price, last_dividend s == 0 ->
        pe_ratio s price = Raise ZeroDivisionError)
  /\ (forall price, ~ last_dividend s == 0 ->
        pe_ratio s price = Return (price / last_dividend s))
  /\ (last_dividend s == 8 ->
        exists v, pe_ratio s 120 = Return v /\ v == 15).
Proof.
  unfold pe_ratio. split; [| split; [| split]].
  - intros price. apply div_raises_iff.
  - intros price H. now apply div_zero.
  - intros price H. now apply div_nonzero.
  - intros H. exists (120 / last_dividend s). split.
    + apply div_nonzero. rewrite H. discriminate.
    + rewrite H. reflexivity.
Qed.

Lemma pe_ratio_undefined_iff_zero_dividend_witness :
  (exists v, pe_ratio Example.pop 120 = Return v /\ v == 15)
  /\ pe_ratio Example.tea 110 = Raise ZeroDivisionError.
Proof.
  split.
  - apply (pe_ratio_undefined_iff_zero_dividend Example.pop). reflexivity.
  - apply (pe_ratio_undefined_iff_zero_dividend Example.tea). reflexivity.
Defined.

(** C6, as the code behaves. [dividend_yield] checks neither the price nor
    the category.  On a Common share, or a Preferred share with its fixed
    dividend rate, a price equal to zero fails with Python's division error
    ([ZeroDivisionError]) and a price below zero returns the quotient of
    the formula; on a share whose category is neither Common nor Preferred
    it returns no value ([None]) and does not fail, whatever the price. *)
Theorem dividend_yield_unvalidated (s : Stock) (price : Q) :
  (stock_type s = "Common"%string -> price == 0 ->
   dividend_yield s price = Raise ZeroDivisionError)
  /\
  (stock_type s = "Preferred"%string -> fixed_dividend s <> None ->
   price == 0 -> dividend_yield s price = Raise ZeroDivisionError)
  /\
  (stock_type s = "Common"%string -> price < 0 ->
   dividend_yield s price = Return (Some (last_dividend s / price)))
  /\
  (stock_type s = "Preferred"%string ->
   forall rate, fixed_dividend s = Some rate -> price < 0 ->
   dividend_yield s price = Return (Some (rate * par_value s / price)))
  /\
  (stock_type s <> "Common"%string -> stock_type s <> "Preferred"%string ->
   dividend_yield s price = Return None).
Proof.
  repeat split.
  - intros Hc Hz. rewrite (dividend_yield_common _ _ Hc).
    now rewrite (div_zero _ _ Hz).
  - intros Hc Hr Hz. rewrite (dividend_yield_preferred _ _ Hc).
    destruct (fixed_dividend s) as [rate |]; [| contradiction]. simpl.
    now rewrite (div_zero _ _ Hz).
  - intros Hc Hn%Qneg_nonzero. rewrite (dividend_yield_common _ _ Hc).
    now rewrite (div_nonzero _ _ Hn).
  - intros Hc rate Hr Hn%Qneg_nonzero.
    rewrite (dividend_yield_preferred _ _ Hc), Hr. simpl.
    now rewrite (div_nonzero _ _ Hn).
  - apply dividend_yield_other.
Qed.

Lemma dividend_yield_unvalidated_witness :
  dividend_yield Example.pop 0 = Raise ZeroDivisionError
  /\ dividend_yield Example.gin (-140) = Return (Some ((2 # 100) * 100 / -140))
  /\ dividend_yield (Stock_init "XYZ" "Bond" 8 None 100) 0 = Return None.
Proof.
  split; [| split].
  - destruct (dividend_yield_unvalidated Example.pop 0) as (H & _).
    apply H; reflexivity.
  - destruct (dividend_yield_unvalidated Example.gin (-140))
      as (_ & _ & _ & H & _).
    apply H; reflexivity.
  - destruct (dividend_yield_unvalidated (Stock_init "XYZ" "Bond" 8 None 100) 0)
      as (_ & _ & _ & _ & H).
    apply H; discriminate.
Defined.

(** C6, as stated, fails: a price of [-5] is answered with a number, and a
    share of category ["Bond"] is answered with [None]; neither call
    fails. *)
Lemma dividend_yield_unvalidated_counterexample :
  (-5 <= 0
   /\ dividend_yield Example.pop (-5) = Return (Some (-8 # 5))
   /\ ~ raises (dividend_yield Example.pop (-5)))
  /\
  (dividend_yield (Stock_init "XYZ" "Bond" 8 None 100) 110 = Return None
   /\ ~ raises (dividend_yield (Stock_init "XYZ" "Bond" 8 None 100) 110)).
Proof.
  repeat split; try discriminate.
  - intros [e He]. discriminate He.
  - intros [e He]. discriminate He.
Qed.

(** ** Recording trades *)

Lemma store_set_same (h : store) (l : ref) (s : Stock) : store_set h l s l = s.
Proof. unfold store_set. now rewrite Nat.eqb_refl. Qed.

Lemma store_set_other (h : store) (l l' : ref) (s : Stock) :
  l' <> l -> store_set h l s l' = h l'.
Proof.
  intros Hne. unfold store_set.
  now rewrite (proj2 (Nat.eqb_neq l' l) Hne).
Qed.

Lemma within_window (now : Z) (l : list Trade) :
  filter (in_window now) l = Spec.within now Spec.default_window l.
Proof. reflexivity. Qed.

Lemma within_In (asOf w : Z) (l : list Trade) (t : Trade) :
  In t (Spec.within asOf w l) <-> In t l /\ (Spec.age asOf t <= w)%Z.
Proof.
  unfold Spec.within. rewrite filter_In. now rewrite Z.leb_le.
Qed.

Lemma all_trades_In (h : store) (m : StockMarket) (t : Trade) :
  In t (Spec.all_trades h m) <->
  exists l, In l (dict_values (stocks m)) /\ In t (trades (h l)).
Proof. unfold Spec.all_trades. apply in_flat_map. Qed.

Lemma collect_prices_from (h : store) (l : list ref) (acc : list Q) :
  fold_left (fun prices stock => prices ++ map price (trades (h stock))) l acc
  = acc ++ map price (flat_map (fun r => trades (h r)) l).
Proof.
  revert acc. induction l as [| r l IH]; intros acc; simpl.
  - now rewrite app_nil_r.
  - rewrite IH, map_app. now rewrite app_assoc.
Qed.

Lemma collect_prices_all (h : store) (m : StockMarket) :
  collect_prices h m = map price (Spec.all_trades h m).
Proof. unfold collect_prices. now rewrite collect_prices_from. Qed.

(** C9. On a valid input [record_trade] returns no value and appends one
    trade, stamped with the current clock reading, at the end of the trade
    sequence: the earlier trades keep their positions, and the symbol, the
    category, the last dividend, the fixed dividend rate and the par value
    are unchanged.  In the store, only the share the call is made on
    changes. *)
Theorem record_trade_appends (now : Z) (s : Stock)
    (qty : Q) (act : string) (px : Q) :
  Spec.valid_trade qty act px ->
  exists s',
    record_trade now s qty act px = Return (tt, s')
    /\ trades s' = trades s ++ [mkTrade now qty act px]
    /\ List.length (trades s') = S (List.length (trades s))
    /\ (forall i t, nth_error (trades s) i = Some t ->
                    nth_error (trades s') i = Some t)
    /\ nth_error (trades s') (List.length (trades s))
       = Some (mkTrade now qty act px)
    /\ (symbol s' = symbol s /\ stock_type s' = stock_type s
        /\ last_dividend s' = last_dividend s
        /\ fixed_dividend s' = fixed_dividend s
        /\ par_value s' = par_value s)
    /\ (forall h l, h l = s ->
        exists h',
          call_record_trade now h l qty act px = Return (tt, h')
          /\ h' l = s' /\ forall l', l' <> l -> h' l' = h l').
Proof.
  intros _. eexists. split; [reflexivity |]. simpl.
  split; [reflexivity |]. split.
  { rewrite length_app. simpl. lia. }
  split.
  { intros i t Ht. rewrite nth_error_app1; [assumption |].
    apply nth_error_Some. congruence. }
  split.
  { rewrite nth_error_app2 by lia. now rewrite Nat.sub_diag. }
  split; [now repeat split |].
  intros h l Hl. unfold call_record_trade. rewrite Hl. simpl.
  eexists. split; [reflexivity |]. split.
  - apply store_set_same.
  - intros l' Hne. now apply store_set_other.
Qed.

Lemma record_trade_appends_witness :
  exists s',
    record_trade 7 Example.tea 100 "buy" 110 = Return (tt, s')
    /\ trades s' = [mkTrade 7 100 "buy" 110]
    /\ symbol s' = "TEA"%string.
Proof.
  destruct (record_trade_appends 7 Example.tea 100 "buy" 110)
    as (s' & Hr & Ht & _ & _ & _ & (Hs & _) & _).
  - repeat split. now left.
  - exists s'. repeat split; assumption.
Defined.

(** C5, as the code behaves. [record_trade] checks nothing: for every
    quantity, action and price (a quantity or price at or below zero and
    an action other than buy and sell included) it succeeds and appends the
    trade, which the later metric computations read: it lies in the
    lookback window of the volume weighted price for the next 15 minutes,
    and among the trades of the all-share index of every market that holds
    the share. *)
Theorem record_trade_unvalidated (now : Z) (s : Stock)
    (qty : Q) (act : string) (px : Q) :
  exists s',
    record_trade now s qty act px = Return (tt, s')
    /\ trades s' = trades s ++ [mkTrade now qty act px]
    /\ (forall now', (now' - now <= Spec.default_window)%Z ->
        In (mkTrade now qty act px)
           (Spec.within now' Spec.default_window (trades s')))
    /\ (forall h l m, h l = s -> In l (dict_values (stocks m)) ->
        exists h',
          call_record_trade now h l qty act px = Return (tt, h')
          /\ In (mkTrade now qty act px) (Spec.all_trades h' m)
          /\ In px (collect_prices h' m)).
Proof.
  eexists. split; [reflexivity |]. simpl. split; [reflexivity |]. split.
  - intros now' Hage. apply within_In. split.
    + apply in_or_app. right. now left.
    + exact Hage.
  - intros h l m Hl Hin. unfold call_record_trade. rewrite Hl. simpl.
    eexists. split; [reflexivity |].
    assert (Ht : In (mkTrade now qty act px)
                    (Spec.all_trades
                       (store_set h l
                          (mkStock (symbol s) (stock_type s) (last_dividend s)
                             (fixed_dividend s) (par_value s)
                             (trades s ++ [mkTrade now qty act px])))
                       m)).
    { apply all_trades_In. exists l. split; [assumption |].
      rewrite store_set_same. simpl. apply in_or_app. right. now left. }
    split; [exact Ht |].
    rewrite collect_prices_all.
    change px with (price (mkTrade now qty act px)) at 1.
    now apply in_map.
Qed.

(** A trade of quantity 0 at price -5 with the action ["hold"], recorded on
    TEA after the market was built, is read by the index of that market. *)
Lemma record_trade_unvalidated_witness :
  exists h',
    call_record_trade 0 Example.objects 0%nat 0 "hold" (-5) = Return (tt, h')
    /\ In (-5) (collect_prices h' Example.gbce).
Proof.
  destruct (record_trade_unvalidated 0 Example.tea 0 "hold" (-5))
    as (s' & _ & _ & _ & Hindex).
  destruct (Hindex Example.objects 0%nat Example.gbce)
    as (h' & Hcall & _ & Hin).
  - reflexivity.
  - now left.
  - exists h'. split; assumption.
Defined.

(** C5, as stated, fails: a quantity of [0], a price of [-5] and the action
    ["hold"] are all recorded, and the volume weighted price computed next
    is made of the trade at price [-5]. *)
Lemma record_trade_unvalidated_counterexample :
  record_trade 0 Example.tea 0 "buy" 110
  = Return (tt, mkStock "TEA" "Common" 0 None 100 [mkTrade 0 0 "buy" 110])
  /\
  record_trade 0 Example.tea 100 "hold" (-5)
  = Return (tt, mkStock "TEA" "Common" 0 None 100 [mkTrade 0 100 "hold" (-5)])
  /\
  (r <- record_trade 0 Example.tea 100 "buy" (-5) ;;
   volume_weighted_stock_price 0 (snd r)) = Return (-500 # 100).
Proof. repeat split. Qed.

(** ** Volume weighted stock price *)

Lemma volume_weighted_stock_price_eq (now : Z) (s : Stock) :
  volume_weighted_stock_price now s =
  Py.div
    (Py.sum (map (fun t => quantity t * price t)
                 (Spec.within now Spec.default_window (trades s))))
    (Py.sum (map quantity (Spec.within now Spec.default_window (trades s)))).
Proof. reflexivity. Qed.

(** C2. At the clock reading [now], [volume_weighted_stock_price] equals
    Σ(quantity·price) / Σ(quantity) over exactly the trades whose age
    [now - timestamp] is at most the window of 15 minutes, whenever that
    quotient is defined (Σ(quantity) is not zero).  A trade whose age is
    exactly 15 minutes is inside the window, and the trades outside the
    window have no influence: two shares with the same trades inside the
    window get the same result. *)
Theorem volume_weighted_stock_price_window (now : Z) (s : Stock) :
  ~ Spec.Sum (map quantity (Spec.within now Spec.default_window (trades s)))
    == 0 ->
  (exists v,
     volume_weighted_stock_price now s = Return v
     /\ v == Spec.volume_weighted
               (Spec.within now Spec.default_window (trades s)))
  /\ (forall t, In t (Spec.within now Spec.default_window (trades s)) <->
                In t (trades s) /\ (Spec.age now t <= 15 * 60 * 1000000)%Z)
  /\ (forall t, In t (trades s) -> Spec.age now t = Spec.default_window ->
                In t (Spec.within now Spec.default_window (trades s)))
  /\ (forall s',
        Spec.within now Spec.default_window (trades s')
        = Spec.within now Spec.default_window (trades s) ->
        volume_weighted_stock_price now s' = volume_weighted_stock_price now s).
Proof.
  intros Hnz. split; [| split; [| split]].
  - rewrite volume_weighted_stock_price_eq. eexists. split.
    + apply div_nonzero. now rewrite sum_Sum.
    + unfold Spec.volume_weighted. now rewrite !sum_Sum.
  - intros t. apply within_In.
  - intros t Hin Hage. apply within_In. split; [assumption |].
    rewrite Hage. apply Z.le_refl.
  - intros s' Hsame. rewrite !volume_weighted_stock_price_eq.
    now rewrite Hsame.
Qed.

(** ALE with a trade of 150 at 130 made 15 minutes ago and a trade of 10 at
    999 made one microsecond earlier: the result is 130. *)
Lemma volume_weighted_stock_price_window_witness :
  exists v,
    volume_weighted_stock_price 900000001
      (mkStock "ALE" "Common" 23 None 60
         [mkTrade 0 10 "sell" 999; mkTrade 1 150 "buy" 130]) = Return v
    /\ v == 130.
Proof.
  destruct (volume_weighted_stock_price_window 900000001
              (mkStock "ALE" "Common" 23 None 60
                 [mkTrade 0 10 "sell" 999; mkTrade 1 150 "buy" 130]))
    as ((v & Hv & Hq) & _).
  - discriminate.
  - exists v. split; [exact Hv |]. rewrite Hq. reflexivity.
Defined.

(** C7. When no trade lies inside the lookback window,
    [volume_weighted_stock_price] fails: the division of the empty sums
    raises Python's [ZeroDivisionError] (the failure the specification
    calls NoTradesInWindow); no number is returned. *)
Theorem volume_weighted_stock_price_no_trades (now : Z) (s : Stock) :
  Spec.within now Spec.default_window (trades s) = [] ->
  volume_weighted_stock_price now s = Raise ZeroDivisionError.
Proof.
  intros Hempty. rewrite volume_weighted_stock_price_eq, Hempty.
  reflexivity.
Qed.

Lemma volume_weighted_stock_price_no_trades_witness :
  volume_weighted_stock_price 0 Example.ale = Raise ZeroDivisionError
  /\ volume_weighted_stock_price 900000001 (Example.final 0 2%nat)
     = Raise ZeroDivisionError.
Proof.
  split.
  - apply (volume_weighted_stock_price_no_trades 0 Example.ale).
    reflexivity.
  - apply (volume_weighted_stock_price_no_trades 900000001
             (Example.final 0 2%nat)).
    reflexivity.
Defined.

(** ** All-share index *)

Lemma gbce_all_share_index_eq (h : store) (m : StockMarket) :
  gbce_all_share_index h m =
  e <- Py.div 1 (Py.len (map price (Spec.all_trades h m))) ;;
  x <- Py.to_float (Py.prod (map price (Spec.all_trades h m))) ;;
  Py.pow x (Q2R e).
Proof. unfold gbce_all_share_index. now rewrite collect_prices_all. Qed.

(** The exponent [1.0 / len(prices)] of a non-empty list. *)
Lemma exponent_of_len {A : Type} (l : list A) :
  l <> [] ->
  Py.div 1 (Py.len l) = Return (1 / Py.len l)
  /\ Q2R (1 / Py.len l) = (/ INR (List.length l))%R.
Proof.
  intros Hne.
  assert (Hnz : ~ Py.len l == 0) by now rewrite len_zero_iff.
  split.
  - now apply div_nonzero.
  - rewrite Q2R_div by assumption. rewrite Q2R_one, Q2R_len.
    unfold Rdiv. now rewrite Rmult_1_l.
Qed.

Lemma inverse_of_count (n : nat) :
  (1 <= n)%nat ->
  (0 < / INR n <= 1)%R /\ ((2 <= n)%nat -> (/ INR n < 1)%R).
Proof.
  intros Hn.
  assert (H1 : (1 <= INR n)%R).
  { change 1%R with (INR 1). apply le_INR. lia. }
  split; [split |].
  - apply Rinv_0_lt_compat. lra.
  - rewrite <- Rinv_1. apply Rinv_le_contravar; lra.
  - intros H2. rewrite <- Rinv_1.
    apply Rinv_lt_contravar.
    + lra.
    + change 1%R with (INR 1). apply lt_INR. lia.
Qed.

(** The n-th power of [x ** (1/n)] is [x], for a positive real [x]. *)
Lemma Rpower_root (x : R) (n : nat) :
  (0 < x)%R -> (1 <= n)%nat ->
  (0 < Rpower x (/ INR n))%R /\ (Rpower x (/ INR n) ^ n)%R = x.
Proof.
  intros Hx Hn.
  assert (Hpos : (0 < Rpower x (/ INR n))%R) by (unfold Rpower; apply exp_pos).
  split; [exact Hpos |].
  rewrite <- Rpower_pow by exact Hpos.
  rewrite Rpower_mult.
  replace (/ INR n * INR n)%R with 1%R.
  - now apply Rpower_1.
  - field. apply not_0_INR. lia.
Qed.

(** In the real numbers the power that the index evaluates is the geometric
    mean of the prices; the code returns the double nearest to it. *)
Lemma geometric_mean_Rpower (prices : list Q) :
  prices <> [] -> Forall (fun p => 0 < p) prices ->
  Spec.geometric_mean prices
    (Rpower (Q2R (Spec.Prod prices)) (/ INR (List.length prices))).
Proof.
  intros Hne Hpos. unfold Spec.geometric_mean.
  apply Rpower_root.
  - rewrite <- Q2R_zero. apply Qlt_Rlt. now apply Prod_pos.
  - destruct prices; [contradiction | simpl; lia].
Qed.

(** The index on a product within the range of a double. *)
Lemma gbce_all_share_index_in_range (h : store) (m : StockMarket) :
  Spec.all_trades h m <> [] ->
  Py.in_range (Py.prod (map price (Spec.all_trades h m))) ->
  gbce_all_share_index h m =
  Py.pow (Q2R (Spec.Prod (map price (Spec.all_trades h m))))
         (/ INR (List.length (Spec.all_trades h m))).
Proof.
  intros Hne Hr.
  assert (Hne' : map price (Spec.all_trades h m) <> []).
  { intros E. apply map_eq_nil in E. contradiction. }
  destruct (exponent_of_len _ Hne') as [Hdiv Hexp].
  rewrite gbce_all_share_index_eq, Hdiv. unfold bind.
  rewrite (to_float_in_range _ Hr).
  now rewrite Hexp, length_map, (Qeq_eqR _ _ (prod_Prod _)).
Qed.

Lemma gbce_all_share_index_single (h : store) (m : StockMarket) (p : Q) :
  collect_prices h m = [p] -> Py.in_range p ->
  gbce_all_share_index h m = Return (Py.Float (Q2R p)).
Proof.
  intros Hp Hr. unfold gbce_all_share_index. cbv zeta. rewrite Hp.
  destruct (exponent_of_len [p]) as [Hdiv Hexp]; [discriminate |].
  assert (Hprod : Py.prod [p] == p) by (unfold Py.prod; simpl; ring).
  assert (Hr' : Py.in_range (Py.prod [p])).
  { unfold Py.in_range in *. now rewrite Hprod. }
  rewrite Hdiv. unfold bind. rewrite (to_float_in_range _ Hr'), Hexp.
  replace (/ INR (List.length [p]))%R with 1%R by (simpl; lra).
  rewrite (Qeq_eqR _ _ Hprod).
  apply pow_one. now apply in_range_Rabs.
Qed.

Lemma gbce_all_share_index_single_overflow (h : store) (m : StockMarket)
    (p : Q) :
  collect_prices h m = [p] -> ~ Py.in_range p ->
  gbce_all_share_index h m = Raise OverflowError.
Proof.
  intros Hp Hr. unfold gbce_all_share_index. cbv zeta. rewrite Hp.
  destruct (exponent_of_len [p]) as [Hdiv _]; [discriminate |].
  assert (Hprod : Py.prod [p] == p) by (unfold Py.prod; simpl; ring).
  rewrite Hdiv. unfold bind. rewrite to_float_overflow; [reflexivity |].
  unfold Py.in_range in *. now rewrite Hprod.
Qed.




(** C8. When the shares of the registry hold no trade at all,
    [gbce_all_share_index] fails: the division [1.0 / len(prices)] raises
    Python's [ZeroDivisionError] (the failure the specification calls
    NoTrades). *)
Theorem gbce_all_share_index_no_trades (h : store) (m : StockMarket) :
  Spec.all_trades h m = [] ->
  gbce_all_share_index h m = Raise ZeroDivisionError.
Proof.
  intros Hempty. rewrite gbce_all_share_index_eq, Hempty. reflexivity.
Qed.

Lemma gbce_all_share_index_no_trades_witness :
  gbce_all_share_index Example.objects Example.gbce = Raise ZeroDivisionError
  /\ gbce_all_share_index Example.objects (StockMarket_init Example.objects [])
     = Raise ZeroDivisionError.
Proof.
  split.
  - apply (gbce_all_share_index_no_trades Example.objects Example.gbce).
    reflexivity.
  - apply (gbce_all_share_index_no_trades Example.objects
             (StockMarket_init Example.objects [])).
    reflexivity.
Defined.

(** ** The registry of a market *)

Lemma dict_get_set {V : Type} (d : dict V) (k k' : string) (v : V) :
  dict_get (dict_set d k v) k' =
  if String.eqb k' k then Some v else dict_get d k'.
Proof.
  induction d as [| [k0 v0] d IH]; simpl.
  - reflexivity.
  - destruct (String.eqb_spec k k0) as [-> | Hne]; simpl.
    + destruct (String.eqb k' k0); reflexivity.
    + rewrite IH.
      destruct (String.eqb_spec k' k0) as [-> | Hne'].
      * destruct (String.eqb_spec k0 k); [congruence | reflexivity].
      * reflexivity.
Qed.

Lemma dict_keys_set {V : Type} (d : dict V) (k k' : string) (v : V) :
  In k' (dict_keys (dict_set d k v)) <-> k' = k \/ In k' (dict_keys d).
Proof.
  induction d as [| [k0 v0] d IH]; simpl.
  - intuition.
  - destruct (String.eqb_spec k k0) as [-> | Hne]; simpl.
    + intuition.
    + rewrite IH. intuition.
Qed.

Lemma dict_keys_set_NoDup {V : Type} (d : dict V) (k : string) (v : V) :
  NoDup (dict_keys d) -> NoDup (dict_keys (dict_set d k v)).
Proof.
  induction d as [| [k0 v0] d IH]; simpl; intros Hnd.
  - constructor; [intros [] | constructor].
  - inversion Hnd as [| ? ? Hnotin Hnd']; subst.
    destruct (String.eqb_spec k k0) as [-> | Hne]; simpl.
    + now constructor.
    + constructor.
      * intros Hin. apply dict_keys_set in Hin.
        destruct Hin as [-> | Hin]; [now apply Hne | now apply Hnotin].
      * now apply IH.
Qed.

Lemma find_app {A : Type} (p : A -> bool) (l1 l2 : list A) :
  find p (l1 ++ l2) =
  match find p l1 with
  | Some a => Some a
  | None => find p l2
  end.
Proof.
  induction l1 as [| a l1 IH]; simpl; [reflexivity |].
  now destruct (p a).
Qed.

(** The comprehension, started from any dict. *)
Lemma comprehension_from (h : store) (l : list ref) (d : dict ref) :
  NoDup (dict_keys d) ->
  NoDup (dict_keys
           (fold_left (fun d stock => dict_set d (symbol (h stock)) stock) l d))
  /\ forall s,
       dict_get
         (fold_left (fun d stock => dict_set d (symbol (h stock)) stock) l d) s
       = match Spec.last_with_symbol h l s with
         | Some r => Some r
         | None => dict_get d s
         end.
Proof.
  revert d. induction l as [| r l IH]; intros d Hnd; simpl.
  - now split.
  - destruct (IH (dict_set d (symbol (h r)) r)) as [Hnd' Hget].
    { now apply dict_keys_set_NoDup. }
    split; [exact Hnd' |].
    intros s. rewrite Hget. unfold Spec.last_with_symbol. simpl.
    rewrite find_app. simpl.
    destruct (find (fun r0 => String.eqb s (symbol (h r0))) (rev l));
      [reflexivity |].
    rewrite dict_get_set. now destruct (String.eqb s (symbol (h r))).
Qed.

(** C10. [StockMarket.__init__] always builds a registry, in which every
    symbol is a key once and stands for one share.  When two shares of the
    list have the same symbol the later one replaces the earlier one: a
    symbol stands for the last share of the list that carries it. *)
Theorem StockMarket_init_last_wins (h : store) (l : list ref) :
  NoDup (dict_keys (stocks (StockMarket_init h l)))
  /\ (forall s,
        dict_get (stocks (StockMarket_init h l)) s
        = Spec.last_with_symbol h l s)
  /\ (forall r, In r l ->
        exists r', dict_get (stocks (StockMarket_init h l)) (symbol (h r))
                   = Some r'
                   /\ symbol (h r') = symbol (h r))
  /\ (forall l1 r l2,
        l = l1 ++ r :: l2 ->
        (forall r', In r' l2 -> symbol (h r') <> symbol (h r)) ->
        dict_get (stocks (StockMarket_init h l)) (symbol (h r)) = Some r).
Proof.
  destruct (comprehension_from h l []) as [Hnd Hget]; [constructor |].
  assert (Hlast : forall s,
             dict_get (stocks (StockMarket_init h l)) s
             = Spec.last_with_symbol h l s).
  { intros s. unfold StockMarket_init. simpl. rewrite Hget.
    now destruct (Spec.last_with_symbol h l s). }
  split; [exact Hnd |]. split; [exact Hlast |]. split.
  - intros r Hin. rewrite Hlast. unfold Spec.last_with_symbol.
    destruct (find (fun r0 => String.eqb (symbol (h r)) (symbol (h r0)))
                   (rev l)) as [r' |] eqn:E.
    + exists r'. split; [reflexivity |].
      apply find_some in E. destruct E as [_ E].
      apply String.eqb_eq in E. now symmetry.
    + apply in_rev in Hin. apply (find_none _ _ E) in Hin.
      now rewrite String.eqb_refl in Hin.
  - intros l1 r l2 -> Hlater. rewrite Hlast. unfold Spec.last_with_symbol.
    rewrite rev_app_distr. simpl. rewrite <- app_assoc, find_app.
    destruct (find (fun r0 => String.eqb (symbol (h r)) (symbol (h r0)))
                   (rev l2)) as [r' |] eqn:E.
    + apply find_some in E. destruct E as [Hin E].
      apply String.eqb_eq in E. apply in_rev in Hin.
      exfalso. now apply (Hlater r' Hin).
    + simpl. now rewrite String.eqb_refl.
Qed.

(** Two shares with the symbol TEA: the registry keeps the second. *)
Lemma StockMarket_init_last_wins_witness :
  dict_get
    (stocks (StockMarket_init
               (fun l => nth l [Example.tea; Example.pop;
                                Stock_init "TEA" "Preferred" 5 (Some (1 # 10)) 50]
                             Example.tea)
               [0; 1; 2]%nat))
    "TEA" = Some 2%nat.
Proof.
  destruct (StockMarket_init_last_wins
              (fun l => nth l [Example.tea; Example.pop;
                               Stock_init "TEA" "Preferred" 5 (Some (1 # 10)) 50]
                            Example.tea)
              [0; 1; 2]%nat) as (_ & _ & _ & Hlast).
  apply (Hlast [0; 1]%nat 2%nat []).
  - reflexivity.
  - intros r' [].
Defined.

(** * Further properties of the code *)

(** ** Dividend metrics *)

(** X1. On a Preferred share without a fixed dividend ([None], as the
    source passes for its Common shares) [dividend_yield] raises
    [TypeError] at every price: the product [fixed_dividend * par_value] is
    evaluated before the division, so even a price of zero does not give
    [ZeroDivisionError]. *)
Theorem dividend_yield_preferred_without_rate (s : Stock) (price : Q) :
  stock_type s = "Preferred"%string -> fixed_dividend s = None ->
  dividend_yield s price = Raise TypeError.
Proof.
  intros Hp Hnone. rewrite (dividend_yield_preferred _ _ Hp), Hnone.
  reflexivity.
Qed.

Lemma dividend_yield_preferred_without_rate_witness :
  dividend_yield (Stock_init "GIN" "Preferred" 8 None 100) 140 = Raise TypeError
  /\ dividend_yield (Stock_init "GIN" "Preferred" 8 None 100) 0
     = Raise TypeError.
Proof.
  split.
  - apply (dividend_yield_preferred_without_rate
             (Stock_init "GIN" "Preferred" 8 None 100) 140); reflexivity.
  - apply (dividend_yield_preferred_without_rate
             (Stock_init "GIN" "Preferred" 8 None 100) 0); reflexivity.
Defined.

(** X2. Recording a trade on one share changes no dividend metric and no
    other share: the dividend yield and the P/E ratio of every share of the
    store, the traded one included, are as before at every price, and so is
    the volume weighted price of every other share. *)
Theorem record_trade_leaves_other_metrics (now : Z) (h : store) (r : ref)
    (qty : Q) (act : string) (px : Q) :
  exists h',
    call_record_trade now h r qty act px = Return (tt, h')
    /\ (forall r' p,
          dividend_yield (h' r') p = dividend_yield (h r') p
          /\ pe_ratio (h' r') p = pe_ratio (h r') p)
    /\ (forall r' now', r' <> r ->
          volume_weighted_stock_price now' (h' r')
          = volume_weighted_stock_price now' (h r')).
Proof.
  eexists. split; [reflexivity |]. simpl. split.
  - intros r' p. unfold store_set.
    destruct (Nat.eqb_spec r' r) as [-> | Hne]; split; reflexivity.
  - intros r' now' Hne. now rewrite store_set_other.
Qed.

(** ** Volume weighted stock price: failure *)

Lemma Sum_nonneg (l : list Q) : Forall (fun x => 0 <= x) l -> 0 <= Spec.Sum l.
Proof.
  induction 1 as [| x l Hx _ IH]; simpl.
  - apply Qle_refl.
  - Lqa.lra.
Qed.

Lemma Sum_pos (l : list Q) :
  l <> [] -> Forall (fun x => 0 < x) l -> 0 < Spec.Sum l.
Proof.
  intros Hne Hall. destruct Hall as [| x l Hx Hl]; [contradiction |].
  simpl.
  assert (H0 : 0 <= Spec.Sum l).
  { apply Sum_nonneg. eapply Forall_impl; [| exact Hl].
    intros a Ha. now apply Qlt_le_weak. }
  Lqa.lra.
Qed.

(** X3. [volume_weighted_stock_price] raises exactly when the quantities of
    the trades inside the window sum to zero, and then with
    [ZeroDivisionError]: an empty window is one such case, trades of
    quantity zero or quantities that cancel are others.  When every
    quantity inside the window is positive it raises exactly when the
    window is empty. *)
Theorem volume_weighted_stock_price_raises_iff (now : Z) (s : Stock) :
  (raises (volume_weighted_stock_price now s) <->
   Spec.Sum (map quantity (Spec.within now Spec.default_window (trades s)))
   == 0)
  /\
  (raises (volume_weighted_stock_price now s) ->
   volume_weighted_stock_price now s = Raise ZeroDivisionError)
  /\
  (Forall (fun t => 0 < quantity t)
          (Spec.within now Spec.default_window (trades s)) ->
   (raises (volume_weighted_stock_price now s) <->
    Spec.within now Spec.default_window (trades s) = [])).
Proof.
  rewrite volume_weighted_stock_price_eq.
  set (W := Spec.within now Spec.default_window (trades s)).
  assert (Hiff : raises
                   (Py.div (Py.sum (map (fun t => quantity t * price t) W))
                           (Py.sum (map quantity W)))
                 <-> Spec.Sum (map quantity W) == 0).
  { rewrite div_raises_iff. now rewrite sum_Sum. }
  split; [exact Hiff |]. split.
  - intros Hr. apply div_zero. rewrite sum_Sum. now apply Hiff.
  - intros Hpos. rewrite Hiff. split.
    + intros Hz. destruct W as [| t W'] eqn:E; [reflexivity |].
      exfalso.
      assert (Hlt : 0 < Spec.Sum (map quantity (t :: W'))).
      { apply Sum_pos; [discriminate |].
        apply Forall_map. exact Hpos. }
      rewrite Hz in Hlt. now apply Qlt_irrefl in Hlt.
    + intros ->. reflexivity.
Qed.

(** A buy of 5 and a trade of -5 in the window: the quantities cancel. *)
Lemma volume_weighted_stock_price_raises_iff_witness :
  volume_weighted_stock_price 10
    (mkStock "ALE" "Common" 23 None 60
       [mkTrade 0 5 "buy" 130; mkTrade 1 (-5) "sell" 120])
  = Raise ZeroDivisionError.
Proof.
  destruct (volume_weighted_stock_price_raises_iff 10
              (mkStock "ALE" "Common" 23 None 60
                 [mkTrade 0 5 "buy" 130; mkTrade 1 (-5) "sell" 120]))
    as (Hiff & Herr & _).
  apply Herr. apply Hiff. reflexivity.
Defined.

(** ** Volume weighted stock price: what it reads *)

Lemma within_app (asOf w : Z) (l1 l2 : list Trade) :
  Spec.within asOf w (l1 ++ l2)
  = Spec.within asOf w l1 ++ Spec.within asOf w l2.
Proof. apply filter_app. Qed.

Lemma within_relabel (f : Trade -> string) (asOf w : Z) (l : list Trade) :
  Spec.within asOf w (map (relabel f) l)
  = map (relabel f) (Spec.within asOf w l).
Proof.
  unfold Spec.within.
  induction l as [| t l IH]; simpl; [reflexivity |].
  change (Spec.age asOf (relabel f t)) with (Spec.age asOf t).
  destruct (Spec.age asOf t <=? w)%Z; simpl; now rewrite IH.
Qed.

(** X5. The action of a trade is never read: replacing the actions of the
    trades of a share in any way (a buy for a sell, or any other string)
    leaves its volume weighted price unchanged, at every clock reading. *)
Theorem volume_weighted_stock_price_ignores_action
    (f : Trade -> string) (now : Z) (s : Stock) :
  volume_weighted_stock_price now
    (with_trades s (map (relabel f) (trades s)))
  = volume_weighted_stock_price now s.
Proof.
  rewrite !volume_weighted_stock_price_eq. simpl.
  rewrite within_relabel, !map_map. reflexivity.
Qed.

(** X6. Trades only leave the window as the clock advances: a trade inside
    the window at a later reading was inside it at every earlier one.  So
    once the window is empty the volume weighted price keeps raising
    [ZeroDivisionError] at every later reading, until a trade is
    recorded. *)
Theorem volume_weighted_stock_price_expiry (now now' : Z) (s : Stock) :
  (now <= now')%Z ->
  (forall t, In t (Spec.within now' Spec.default_window (trades s)) ->
             In t (Spec.within now Spec.default_window (trades s)))
  /\
  (Spec.within now Spec.default_window (trades s) = [] ->
   volume_weighted_stock_price now' s = Raise ZeroDivisionError).
Proof.
  intros Hle.
  assert (Hsub : forall t,
             In t (Spec.within now' Spec.default_window (trades s)) ->
             In t (Spec.within now Spec.default_window (trades s))).
  { intros t Hin. apply within_In in Hin. destruct Hin as [Hin Hage].
    apply within_In. split; [assumption |].
    unfold Spec.age in *. lia. }
  split; [exact Hsub |].
  intros Hempty. rewrite volume_weighted_stock_price_eq.
  destruct (Spec.within now' Spec.default_window (trades s)) as [| t W] eqn:E.
  - reflexivity.
  - exfalso. specialize (Hsub t (or_introl eq_refl)).
    now rewrite Hempty in Hsub.
Qed.

Lemma volume_weighted_stock_price_expiry_witness :
  volume_weighted_stock_price 2000000000 (Example.final 0 2%nat)
  = Raise ZeroDivisionError.
Proof.
  destruct (volume_weighted_stock_price_expiry 900000001 2000000000
              (Example.final 0 2%nat)) as [_ H].
  - discriminate.
  - apply H. reflexivity.
Defined.

(** X7. After a trade is recorded on a share that has no trade inside the
    window, the volume weighted price read within the next 15 minutes is
    computed from that trade alone: it returns the quotient of
    [quantity * price] by [quantity] of that trade when the quantity is not
    zero, and raises [ZeroDivisionError] when it is. *)
Theorem volume_weighted_stock_price_first_trade (now now' : Z) (s : Stock)
    (qty : Q) (act : string) (px : Q) :
  Spec.within now' Spec.default_window (trades s) = [] ->
  (now' - now <= Spec.default_window)%Z ->
  (~ qty == 0 ->
   (r <- record_trade now s qty act px ;;
    volume_weighted_stock_price now' (snd r))
   = Return ((0 + qty * px) / (0 + qty)))
  /\
  (qty == 0 ->
   (r <- record_trade now s qty act px ;;
    volume_weighted_stock_price now' (snd r))
   = Raise ZeroDivisionError).
Proof.
  intros Hempty Hage.
  assert (Hin : Spec.within now' Spec.default_window [mkTrade now qty act px]
                = [mkTrade now qty act px]).
  { unfold Spec.within. cbn [filter]. unfold Spec.age. cbn [timestamp].
    now rewrite (proj2 (Z.leb_le _ _) Hage). }
  change (r <- record_trade now s qty act px ;;
          volume_weighted_stock_price now' (snd r))
    with (volume_weighted_stock_price now'
            (with_trades s (trades s ++ [mkTrade now qty act px]))).
  rewrite volume_weighted_stock_price_eq. cbn [trades with_trades].
  rewrite within_app, Hempty, Hin. unfold Py.sum.
  cbn [app map fold_left quantity price]. split.
  - intros Hq. apply div_nonzero. intros E. apply Hq. rewrite <- E. ring.
  - intros Hq. apply div_zero. rewrite Hq. ring.
Qed.

(** ALE of the source: 150 at 130, read ten seconds later. *)
Lemma volume_weighted_stock_price_first_trade_witness :
  (r <- record_trade 0 Example.ale 150 "buy" 130 ;;
   volume_weighted_stock_price 10000000 (snd r))
  = Return ((0 + 150 * 130) / (0 + 150)).
Proof.
  destruct (volume_weighted_stock_price_first_trade 0 10000000 Example.ale
              150 "buy" 130) as [H _].
  - reflexivity.
  - discriminate.
  - apply H. discriminate.
Defined.

(** ** The ledger in chronological order *)

Lemma chronological_snoc (l : list Trade) (t : Trade) :
  chronological l ->
  Forall (fun t' => (timestamp t' <= timestamp t)%Z) l ->
  chronological (l ++ [t]).
Proof.
  unfold chronological. induction l as [| a l IH]; simpl; intros Hs Hb.
  - repeat constructor.
  - inversion Hs as [| ? ? Hs' Ha]; subst.
    inversion Hb as [| ? ? Hat Hb']; subst.
    constructor.
    + now apply IH.
    + rewrite map_app. apply Forall_app. split; [assumption |].
      now repeat constructor.
Qed.

(** X8. While the clock does not run backwards, [record_trade] keeps the
    ledger in chronological order: if the trades are ordered by timestamp
    and none is later than the clock reading, the same holds after the
    call. *)
Theorem record_trade_chronological (now : Z) (s : Stock)
    (qty : Q) (act : string) (px : Q) :
  chronological (trades s) ->
  Forall (fun t => (timestamp t <= now)%Z) (trades s) ->
  exists s',
    record_trade now s qty act px = Return (tt, s')
    /\ chronological (trades s')
    /\ Forall (fun t => (timestamp t <= now)%Z) (trades s').
Proof.
  intros Hs Hb. eexists. split; [reflexivity |]. simpl. split.
  - now apply chronological_snoc.
  - apply Forall_app. split; [assumption |].
    repeat constructor. simpl. apply Z.le_refl.
Qed.

Lemma record_trade_chronological_witness :
  exists s',
    record_trade 9 (mkStock "TEA" "Common" 0 None 100
                      [mkTrade 3 100 "buy" 110; mkTrade 9 50 "sell" 111])
                 20 "buy" 112 = Return (tt, s')
    /\ chronological (trades s').
Proof.
  destruct (record_trade_chronological 9
              (mkStock "TEA" "Common" 0 None 100
                 [mkTrade 3 100 "buy" 110; mkTrade 9 50 "sell" 111])
              20 "buy" 112) as (s' & Hr & Hc & _).
  - unfold chronological. simpl.
    repeat constructor; discriminate.
  - repeat constructor; discriminate.
  - exists s'. split; assumption.
Defined.



(** ** All-share index: what it reads *)

(** X11. The index reads nothing of a trade but its price: it is neither
    weighted by quantity nor limited to a window, and buys and sells count
    alike.  Two stores in which every share has the same sequence of
    prices give the same index. *)
Theorem gbce_all_share_index_reads_prices (h h' : store) (m : StockMarket) :
  (forall r, map price (trades (h' r)) = map price (trades (h r))) ->
  gbce_all_share_index h' m = gbce_all_share_index h m.
Proof.
  intros Hsame.
  assert (Hp : collect_prices h' m = collect_prices h m).
  { unfold collect_prices. rewrite !collect_prices_from. simpl.
    induction (dict_values (stocks m)) as [| r l IH]; simpl;
      [reflexivity |].
    rewrite !map_app, Hsame. now f_equal. }
  unfold gbce_all_share_index. now rewrite Hp.
Qed.

Lemma gbce_all_share_index_reads_prices_witness :
  gbce_all_share_index
    (fun r => with_trades (Example.final 0 r)
                (map (fun t => mkTrade 77 1 "sell" (price t))
                     (trades (Example.final 0 r))))
    Example.gbce
  = gbce_all_share_index (Example.final 0) Example.gbce.
Proof.
  apply gbce_all_share_index_reads_prices.
  intros r. simpl. rewrite map_map. reflexivity.
Defined.

(** ** All-share index: degenerate prices *)

Lemma Prod_zero (l : list Q) (x : Q) :
  In x l -> x == 0 -> Spec.Prod l == 0.
Proof.
  induction l as [| a l IH]; simpl; intros Hin Hx; [contradiction |].
  destruct Hin as [-> | Hin].
  - rewrite Hx. ring.
  - rewrite (IH Hin Hx). ring.
Qed.

(** X13. A trade at price zero brings the index to zero, whatever the
    other prices are, as long as the running product of the prices stays
    within the range of a double ([record_trade] accepts such a trade). *)
Theorem gbce_all_share_index_zero_price (h : store) (m : StockMarket)
    (t : Trade) :
  In t (Spec.all_trades h m) -> price t == 0 ->
  Forall Py.in_range
         (Py.running_products 1 (map price (Spec.all_trades h m))) ->
  gbce_all_share_index h m = Return (Py.Float 0).
Proof.
  intros Hin Hz Hrun.
  assert (Hne : Spec.all_trades h m <> []).
  { intros E. rewrite E in Hin. contradiction. }
  assert (Hne' : map price (Spec.all_trades h m) <> []).
  { intros E. apply map_eq_nil in E. contradiction. }
  rewrite (gbce_all_share_index_in_range h m Hne)
    by now apply running_products_prod.
  assert (Hprod : Q2R (Spec.Prod (map price (Spec.all_trades h m))) = 0%R).
  { rewrite <- Q2R_zero. apply Qeq_eqR.
    apply (Prod_zero _ (price t)); [now apply in_map | exact Hz]. }
  rewrite Hprod. apply pow_zero_base.
  apply inverse_of_count.
  destruct (Spec.all_trades h m); [contradiction | simpl; lia].
Qed.

Lemma gbce_all_share_index_zero_price_witness :
  gbce_all_share_index
    (store_set (Example.final 0) 0%nat
       (with_trades Example.tea [mkTrade 0 100 "buy" 110; mkTrade 1 5 "buy" 0]))
    Example.gbce
  = Return (Py.Float 0).
Proof.
  apply (gbce_all_share_index_zero_price _ _ (mkTrade 1 5 "buy" 0)).
  - right. left. reflexivity.
  - reflexivity.
  - repeat constructor.
Defined.



(** ** The registry: what [StockMarket.__init__] builds *)

Lemma dict_set_In {V : Type} (d : dict V) (k k' : string) (v v' : V) :
  In (k', v') (dict_set d k v) -> (k' = k /\ v' = v) \/ In (k', v') d.
Proof.
  induction d as [| [k0 v0] d IH]; simpl.
  - intros [E | []]. inversion E. now left.
  - destruct (String.eqb_spec k k0) as [-> | Hne]; simpl.
    + intros [E | Hin]; [inversion E; now left | right; now right].
    + intros [E | Hin]; [right; now left |].
      destruct (IH Hin) as [H | H]; [now left | right; now right].
Qed.

Lemma dict_set_length {V : Type} (d : dict V) (k : string) (v : V) :
  (List.length (dict_set d k v) <= S (List.length d))%nat.
Proof.
  induction d as [| [k0 v0] d IH]; simpl; [lia |].
  destruct (String.eqb k k0); simpl; lia.
Qed.


Lemma dict_get_In {V : Type} (d : dict V) (k : string) (v : V) :
  dict_get d k = Some v -> In (k, v) d.
Proof.
  induction d as [| [k0 v0] d IH]; simpl; [discriminate |].
  destruct (String.eqb_spec k k0) as [-> | Hne].
  - intros E. inversion E. now left.
  - intros E. right. now apply IH.
Qed.

Lemma dict_In_get {V : Type} (d : dict V) (k : string) (v : V) :
  NoDup (dict_keys d) -> In (k, v) d -> dict_get d k = Some v.
Proof.
  induction d as [| [k0 v0] d IH]; simpl; intros Hnd Hin; [contradiction |].
  inversion Hnd as [| ? ? Hnot Hnd']; subst.
  destruct Hin as [E | Hin].
  - inversion E. subst. now rewrite String.eqb_refl.
  - destruct (String.eqb_spec k k0) as [-> | Hne].
    + exfalso. apply Hnot. now apply (in_map fst) in Hin.
    + now apply IH.
Qed.

Lemma comprehension_entries (h : store) (l : list ref) (d : dict ref)
    (k : string) (r : ref) :
  In (k, r)
     (fold_left (fun d stock => dict_set d (symbol (h stock)) stock) l d) ->
  (k = symbol (h r) /\ In r l) \/ In (k, r) d.
Proof.
  revert d. induction l as [| x l IH]; intros d; simpl.
  - now right.
  - intros Hin. destruct (IH _ Hin) as [[Hk Hr] | Hd].
    + left. split; [assumption | now right].
    + apply dict_set_In in Hd. destruct Hd as [[-> ->] | Hd].
      * left. split; [reflexivity | now left].
      * now right.
Qed.

Lemma comprehension_length (h : store) (l : list ref) (d : dict ref) :
  (List.length
     (fold_left (fun d stock => dict_set d (symbol (h stock)) stock) l d)
   <= List.length l + List.length d)%nat.
Proof.
  revert d. induction l as [| x l IH]; intros d; simpl; [lia |].
  specialize (IH (dict_set d (symbol (h x)) x)).
  pose proof (dict_set_length d (symbol (h x)) x). lia.
Qed.

Lemma registry_entries (h : store) (l : list ref) (k : string) (r : ref) :
  In (k, r) (stocks (StockMarket_init h l)) -> k = symbol (h r) /\ In r l.
Proof.
  intros Hin. apply comprehension_entries in Hin.
  destruct Hin as [H | []]. exact H.
Qed.

Lemma registry_keys_NoDup (h : store) (l : list ref) :
  NoDup (dict_keys (stocks (StockMarket_init h l))).
Proof. apply (comprehension_from h l []). constructor. Qed.

Lemma registry_values_NoDup (h : store) (l : list ref) :
  NoDup (dict_values (stocks (StockMarket_init h l))).
Proof.
  apply (NoDup_map_inv (fun r => symbol (h r))).
  unfold dict_values. rewrite map_map.
  pose proof (registry_keys_NoDup h l) as Hnd. unfold dict_keys in Hnd.
  erewrite map_ext_in; [exact Hnd |].
  intros [k r] Hin. simpl. symmetry.
  now apply (registry_entries h l k r).
Qed.

Lemma registry_get (h : store) (l : list ref) (s : string) :
  dict_get (stocks (StockMarket_init h l)) s = Spec.last_with_symbol h l s.
Proof.
  destruct (comprehension_from h l []) as [_ Hget]; [constructor |].
  unfold StockMarket_init. simpl. rewrite Hget.
  now destruct (Spec.last_with_symbol h l s).
Qed.

(** X15. In the registry built by [StockMarket.__init__] every share is
    filed under its own symbol and comes from the list, no share is filed
    twice, and there are at most as many entries as shares in the list.
    A share of the list is in the registry exactly when it is the last
    share of the list with its symbol: a share replaced by a later one
    with the same symbol is not in the market at all. *)
Theorem StockMarket_init_registry (h : store) (l : list ref) :
  (forall k r, In (k, r) (stocks (StockMarket_init h l)) ->
               k = symbol (h r) /\ In r l)
  /\ NoDup (dict_values (stocks (StockMarket_init h l)))
  /\ (List.length (stocks (StockMarket_init h l)) <= List.length l)%nat
  /\ (forall r, In r (dict_values (stocks (StockMarket_init h l))) <->
                Spec.last_with_symbol h l (symbol (h r)) = Some r).
Proof.
  split; [apply registry_entries |].
  split; [apply registry_values_NoDup |].
  split.
  { pose proof (comprehension_length h l []) as H. simpl in H.
    unfold StockMarket_init. simpl. lia. }
  intros r. rewrite <- registry_get. split.
  - intros Hin. apply in_map_iff in Hin. destruct Hin as ([k r'] & E & Hin).
    simpl in E. subst r'.
    destruct (registry_entries h l k r Hin) as [-> _].
    apply dict_In_get; [apply registry_keys_NoDup | exact Hin].
  - intros Hget. apply dict_get_In in Hget.
    now apply (in_map snd) in Hget.
Qed.




(** ** Trades recorded on the shares of a market *)

Lemma comprehension_symbols (h h' : store) (l : list ref) (d : dict ref) :
  (forall r, symbol (h' r) = symbol (h r)) ->
  fold_left (fun d stock => dict_set d (symbol (h' stock)) stock) l d
  = fold_left (fun d stock => dict_set d (symbol (h stock)) stock) l d.
Proof.
  intros Hsym. revert d. induction l as [| x l IH]; intros d; simpl.
  - reflexivity.
  - now rewrite Hsym, IH.
Qed.

(** X17. Recording a trade never changes the registry: the market built
    from a list of shares after the trade is the market built before it.
    The registry holds references, so a market built first reads the
    trades recorded later. *)
Theorem record_trade_keeps_registry (now : Z) (h : store) (r : ref)
    (qty : Q) (act : string) (px : Q) :
  exists h',
    call_record_trade now h r qty act px = Return (tt, h')
    /\ (forall x, symbol (h' x) = symbol (h x))
    /\ (forall l, StockMarket_init h' l = StockMarket_init h l).
Proof.
  eexists. split; [reflexivity |]. simpl.
  assert (Hsym : forall x,
             symbol (store_set h r
                       (mkStock (symbol (h r)) (stock_type (h r))
                          (last_dividend (h r)) (fixed_dividend (h r))
                          (par_value (h r))
                          (trades (h r) ++ [mkTrade now qty act px])) x)
             = symbol (h x)).
  { intros x. unfold store_set.
    now destruct (Nat.eqb_spec x r) as [-> | Hne]. }
  split; [exact Hsym |].
  intros l. unfold StockMarket_init. f_equal.
  now apply comprehension_symbols.
Qed.

Lemma prices_unregistered (h : store) (r : ref) (s' : Stock) (l : list ref) :
  ~ In r l ->
  map price (flat_map (fun x => trades (store_set h r s' x)) l)
  = map price (flat_map (fun x => trades (h x)) l).
Proof.
  induction l as [| x l IH]; simpl; intros Hnot; [reflexivity |].
  rewrite !map_app, IH by tauto.
  rewrite store_set_other; [reflexivity |].
  intros E. apply Hnot. now left.
Qed.

Lemma prices_registered (h : store) (r : ref) (t : Trade) (l : list ref) :
  NoDup l -> In r l ->
  Permutation
    (map price
       (flat_map (fun x => trades (store_set h r
                                     (with_trades (h r) (trades (h r) ++ [t]))
                                     x)) l))
    (price t :: map price (flat_map (fun x => trades (h x)) l)).
Proof.
  induction l as [| x l IH]; simpl; intros Hnd Hin; [contradiction |].
  inversion Hnd as [| ? ? Hnot Hnd']; subst.
  rewrite !map_app.
  destruct (Nat.eq_dec x r) as [-> | Hne].
  - rewrite store_set_same. simpl. rewrite map_app. simpl.
    rewrite prices_unregistered by assumption.
    rewrite <- app_assoc. simpl.
    symmetry. apply Permutation_middle.
  - destruct Hin as [E | Hin]; [contradiction |].
    rewrite store_set_other by assumption.
    etransitivity.
    + apply Permutation_app_head. now apply IH.
    + symmetry. apply Permutation_middle.
Qed.

(** X18. In a market built by [StockMarket.__init__], a trade recorded on
    a registered share adds its price exactly once to the prices the index
    reads; a trade recorded on a share that is not in the registry adds
    nothing.  The first trade ever recorded in the market makes the index
    equal to its price; only a price beyond the range of a double makes it
    raise [OverflowError]. *)
Theorem record_trade_feeds_index (now : Z) (h : store) (l : list ref)
    (r : ref) (qty : Q) (act : string) (px : Q) :
  exists h',
    call_record_trade now h r qty act px = Return (tt, h')
    /\ (In r (dict_values (stocks (StockMarket_init h l))) ->
        Permutation (collect_prices h' (StockMarket_init h l))
                    (px :: collect_prices h (StockMarket_init h l)))
    /\ (~ In r (dict_values (stocks (StockMarket_init h l))) ->
        collect_prices h' (StockMarket_init h l)
        = collect_prices h (StockMarket_init h l))
    /\ (In r (dict_values (stocks (StockMarket_init h l))) ->
        Spec.all_trades h (StockMarket_init h l) = [] ->
        (Py.in_range px ->
         gbce_all_share_index h' (StockMarket_init h l)
         = Return (Py.Float (Q2R px)))
        /\
        (~ Py.in_range px ->
         gbce_all_share_index h' (StockMarket_init h l)
         = Raise OverflowError)).
Proof.
  eexists. split; [reflexivity |]. simpl.
  set (m := StockMarket_init h l).
  set (t := mkTrade now qty act px).
  change (mkStock (symbol (h r)) (stock_type (h r)) (last_dividend (h r))
            (fixed_dividend (h r)) (par_value (h r)) (trades (h r) ++ [t]))
    with (with_trades (h r) (trades (h r) ++ [t])).
  assert (Hreg : In r (dict_values (stocks m)) ->
                 Permutation
                   (collect_prices
                      (store_set h r (with_trades (h r) (trades (h r) ++ [t])))
                      m)
                   (px :: collect_prices h m)).
  { intros Hin. rewrite !collect_prices_all. unfold Spec.all_trades.
    apply (prices_registered h r t); [| exact Hin].
    apply registry_values_NoDup. }
  split; [exact Hreg |]. split.
  - intros Hnot. rewrite !collect_prices_all. unfold Spec.all_trades.
    now apply prices_unregistered.
  - intros Hin Hempty.
    specialize (Hreg Hin). rewrite (collect_prices_all h m), Hempty in Hreg.
    simpl in Hreg. symmetry in Hreg.
    apply Permutation_length_1_inv in Hreg. split.
    + intros Hr. now apply (gbce_all_share_index_single _ _ px).
    + intros Hr. now apply (gbce_all_share_index_single_overflow _ _ px).
Qed.

(** The first trade of the source, TEA at 110, read through the market
    that was built before it. *)
Lemma record_trade_feeds_index_witness :
  exists h',
    call_record_trade 0 Example.objects 0%nat 100 "buy" 110 = Return (tt, h')
    /\ gbce_all_share_index h' Example.gbce = Return (Py.Float (Q2R 110)).
Proof.
  destruct (record_trade_feeds_index 0 Example.objects [0; 1; 2; 3; 4]%nat
              0%nat 100 "buy" 110) as (h' & Hcall & _ & _ & Hfirst).
  exists h'. split; [exact Hcall |].
  apply Hfirst.
  - now left.
  - reflexivity.
  - reflexivity.
Defined.

(** X19. A market built from shares that have no trades yet (shares as
    [Stock.__init__] leaves them) has no index: [gbce_all_share_index]
    raises [ZeroDivisionError], however many shares are listed. *)
Theorem gbce_all_share_index_untraded (h : store) (l : list ref) :
  (forall r, In r l -> trades (h r) = []) ->
  gbce_all_share_index h (StockMarket_init h l) = Raise ZeroDivisionError.
Proof.
  intros Hnone.
  assert (Hempty : Spec.all_trades h (StockMarket_init h l) = []).
  { destruct (Spec.all_trades h (StockMarket_init h l)) as [| t ts] eqn:E;
      [reflexivity |].
    exfalso.
    assert (Hin : In t (Spec.all_trades h (StockMarket_init h l)))
      by (rewrite E; now left).
    apply all_trades_In in Hin. destruct Hin as (r & Hr & Ht).
    apply in_map_iff in Hr. destruct Hr as ([k r'] & Er & Hr).
    simpl in Er. subst r'.
    apply registry_entries in Hr. destruct Hr as [_ Hr].
    rewrite (Hnone r Hr) in Ht. contradiction. }
  rewrite gbce_all_share_index_eq, Hempty. reflexivity.
Qed.

Lemma gbce_all_share_index_untraded_witness :
  gbce_all_share_index Example.objects Example.gbce = Raise ZeroDivisionError.
Proof.
  apply (gbce_all_share_index_untraded Example.objects [0; 1; 2; 3; 4]%nat).
  intros r Hin. simpl in Hin.
  repeat (destruct Hin as [<- | Hin]; [reflexivity |]). contradiction.
Defined.

(** ** Dividend yield against P/E ratio *)

(** X20. On a Common share whose last dividend is zero, at every price
    other than zero, the dividend yield is zero while the P/E ratio raises
    [ZeroDivisionError]: the share has a yield and no P/E ratio. *)
Theorem zero_dividend_yield_and_pe_ratio (s : Stock) (p : Q) :
  stock_type s = "Common"%string -> last_dividend s == 0 -> ~ p == 0 ->
  (exists y, dividend_yield s p = Return (Some y) /\ y == 0)
  /\ pe_ratio s p = Raise ZeroDivisionError.
Proof.
  intros Hc Hz Hp. split.
  - rewrite (dividend_yield_common _ _ Hc), (div_nonzero _ _ Hp). simpl.
    eexists. split; [reflexivity |]. rewrite Hz. unfold Qdiv. ring.
  - unfold pe_ratio. now apply div_zero.
Qed.

(** TEA of the source at price 110. *)
Lemma zero_dividend_yield_and_pe_ratio_witness :
  (exists y, dividend_yield Example.tea 110 = Return (Some y) /\ y == 0)
  /\ pe_ratio Example.tea 110 = Raise ZeroDivisionError.
Proof.
  apply (zero_dividend_yield_and_pe_ratio Example.tea 110).
  - reflexivity.
  - reflexivity.
  - discriminate.
Defined.
